(** * Sale commitment, offline sync replay and sale reversal of the
    me-inventory backend (backend/routers/sales.py, pos.py, sync.py),
    embedded over the SQLAlchemy session it runs in.

    The session is modelled as a pair of database states: [working] is what
    the ORM objects of the session show (queries return the identity-mapped
    objects, with their pending attribute changes), [committed] is what
    [db.commit()] has made durable.  [get_db] closes the session after the
    request, which discards every uncommitted change. *)

From Stdlib Require Import ZArith String Ascii Floats.
From Stdlib Require Uint63.
From stdpp Require Import base gmap list strings sorting.

Local Open Scope string_scope.
Local Open Scope Z_scope.

(** ** Python values *)

(** [str(n)] for a Python int. *)
Definition digit_char (d : Z) : ascii := ascii_of_nat (48 + Z.to_nat d).

Fixpoint pos_digits (fuel : nat) (n : Z) (acc : string) : string :=
  match fuel with
  | O => acc
  | S f =>
      let acc' := String (digit_char (n mod 10)) acc in
      if n <? 10 then acc' else pos_digits f (n / 10) acc'
  end.

Definition str_int (z : Z) : string :=
  let digits := pos_digits (S (Z.to_nat (Z.log2 (Z.abs z)))) (Z.abs z) "" in
  if z <? 0 then "-" ++ digits else digits.

(** [float(n)] for a Python int, as CPython converts it before [price * n]
    (round to nearest); exact for the Integer columns, |n| < 2^63. *)
Definition py_float_of_int (q : Z) : float :=
  if q <? 0 then PrimFloat.opp (PrimFloat.of_uint63 (Uint63.of_Z (- q)))
  else PrimFloat.of_uint63 (Uint63.of_Z q).

(** [product.price * quantity]: a Python float times a Python int. *)
Definition py_mul (price : float) (q : Z) : float :=
  PrimFloat.mul price (py_float_of_int q).

(** The exceptions raised on the modelled paths, with their [str(e)]. *)
Inductive Exc :=
| HTTPException (status_code : Z) (detail : string)
| ValueError (msg : string)
| JSONDecodeError (msg : string) (lineno colno pos : Z).

Definition str_exc (e : Exc) : string :=
  match e with
  | HTTPException c d => str_int c ++ ": " ++ d
  | ValueError m => m
  | JSONDecodeError m l c p =>
      m ++ ": line " ++ str_int l ++ " column " ++ str_int c
        ++ " (char " ++ str_int p ++ ")"
  end.

(** ** models.py *)

Inductive SaleStatus := SALE_COMPLETED | SALE_PENDING | SALE_FAILED.

Inductive SyncStatus := PENDING | SYNCED | FAILED.

#[global] Instance SyncStatus_eq_dec : EqDecision SyncStatus.
Proof. solve_decision. Defined.

(** Product, keyed by [id] in [products]. *)
Record Product := mkProduct { name : string; price : float }.

(** Inventory, keyed by its unique [product_id] in [inventory]. *)
Record Inventory := mkInventory
  { inv_id : Z; quantity : Z; min_stock_level : Z }.

Record SaleItem := mkSaleItem
  { si_sale_id : Z; si_product_id : Z; si_quantity : Z;
    si_unit_price : float; si_subtotal : float }.

(** Sale, keyed by [id] in [sales]; [items] is the [Sale.items]
    relationship (cascade "all, delete-orphan"). *)
Record Sale := mkSale
  { sale_id : Z; sale_date : Z; total_amount : float;
    sale_status : SaleStatus; sync_status : SyncStatus;
    sale_created_at : Z; items : list SaleItem }.

(** The sync-queue payload as [json.loads] reads the stored text.  A line
    of "items" has its "product_id" and "quantity" as JSON integers, or
    absent/null ([None]); "items" absent reads as [payload.get("items", [])]. *)
Record PayloadItem := mkPayloadItem
  { pi_product_id : option Z; pi_quantity : option Z }.

Record SalePayload := mkSalePayload
  { pl_items : list PayloadItem; pl_sale_date : option Z }.

Inductive Payload :=
| PayloadJson (p : SalePayload)
| PayloadInvalid (msg : string) (lineno colno pos : Z).

(** SyncQueue, keyed by [id] in [sync_queue]. *)
Record SyncQueue := mkSyncQueue
  { transaction_type : string; payload : Payload; status : SyncStatus;
    created_at : Z; synced_at : option Z; error_message : option string }.

Record DB := mkDB
  { products : gmap Z Product;
    inventory : gmap Z Inventory;
    sales : gmap Z Sale;
    next_sale_id : Z;               (* the autoincrement of sales.id *)
    sync_queue : gmap Z SyncQueue }.

Definition set_inventory (m : gmap Z Inventory) (db : DB) : DB :=
  mkDB (products db) m (sales db) (next_sale_id db) (sync_queue db).
Definition set_sales (m : gmap Z Sale) (n : Z) (db : DB) : DB :=
  mkDB (products db) (inventory db) m n (sync_queue db).
Definition set_sync_queue (m : gmap Z SyncQueue) (db : DB) : DB :=
  mkDB (products db) (inventory db) (sales db) (next_sale_id db) m.

Definition set_quantity (q : Z) (i : Inventory) : Inventory :=
  mkInventory (inv_id i) q (min_stock_level i).
Definition add_item (si : SaleItem) (s : Sale) : Sale :=
  mkSale (sale_id s) (sale_date s) (total_amount s) (sale_status s)
    (sync_status s) (sale_created_at s) (app (items s) [si]).

(** ** The session: state and exceptions *)

Record Session := mkSession { committed : DB; working : DB }.

(** A Python call either returns or raises, and in both cases leaves the
    session as it has mutated it so far. *)
Inductive res (A : Type) : Type :=
| Ok (a : A) (s : Session)
| Err (e : Exc) (s : Session).
Arguments Ok {A} a s.
Arguments Err {A} e s.

Definition M (A : Type) : Type := Session -> res A.

Definition ret {A} (a : A) : M A := fun s => Ok a s.
Definition bind {A B} (m : M A) (k : A -> M B) : M B :=
  fun s => match m s with Ok a s' => k a s' | Err e s' => Err e s' end.
Definition raise {A} (e : Exc) : M A := fun s => Err e s.
(** [try: m except Exception as e: h(e)] *)
Definition try_except {A} (m : M A) (h : Exc -> M A) : M A :=
  fun s => match m s with Ok a s' => Ok a s' | Err e s' => h e s' end.

Notation "'let*' x ':=' m 'in' k" := (bind m (fun x => k))
  (at level 200, x name, m at level 100, k at level 200).
Notation "'let*' ' p ':=' m 'in' k" :=
  (bind m (fun x => match x with p => k end))
  (at level 200, p pattern, m at level 100, k at level 200).

Definition gets {A} (f : DB -> A) : M A := fun s => Ok (f (working s)) s.
Definition modify (f : DB -> DB) : M unit :=
  fun s => Ok tt (mkSession (committed s) (f (working s))).
Definition commit : M unit :=
  fun s => Ok tt (mkSession (working s) (working s)).
Definition rollback : M unit :=
  fun s => Ok tt (mkSession (committed s) (committed s)).

(** A request: a fresh session on the database, closed at the end
    ([get_db]); only what was committed survives. *)
Definition run {A} (m : M A) (db : DB) : (Exc + A) * DB :=
  match m (mkSession db db) with
  | Ok a s => (inr a, committed s)
  | Err e s => (inl e, committed s)
  end.

(** [db.query(Product).filter(Product.id == pid).first()] and the same for
    Inventory by its product_id ([with_for_update()] takes a row lock, which
    a sequential run does not observe). *)
Definition query_product (pid : Z) : M (option Product) :=
  gets (fun db => products db !! pid).
Definition query_inventory (pid : Z) : M (option Inventory) :=
  gets (fun db => inventory db !! pid).

(** [db.add(sale); db.flush()]: the row gets the next id. *)
Definition add_sale (mk : Z -> Sale) : M Z :=
  fun s =>
    let db := working s in
    let sid := next_sale_id db in
    Ok sid (mkSession (committed s)
              (set_sales (<[sid := mk sid]> (sales db)) (sid + 1) db)).

(** [db.add(SaleItem(sale_id=sid, ...))] *)
Definition add_sale_item (sid : Z) (si : SaleItem) (db : DB) : DB :=
  set_sales (alter (add_item si) sid (sales db)) (next_sale_id db) db.

(** [inventory.quantity -= q] on the session's Inventory object. *)
Definition deduct_inventory (key q : Z) (db : DB) : DB :=
  set_inventory
    (alter (fun i => set_quantity (quantity i - q) i) key (inventory db)) db.

(** One entry of [sale_items_data]; [d_inventory] is the Inventory object
    it holds, named by its product_id key (one object per row per session). *)
Record ItemData := mkItemData
  { d_product_id : Z; d_quantity : Z; d_unit_price : float;
    d_subtotal : float; d_inventory : Z }.

Definition sale_item_of (sid : Z) (d : ItemData) : SaleItem :=
  mkSaleItem sid (d_product_id d) (d_quantity d) (d_unit_price d) (d_subtotal d).

(** The second loop shared by the three commit paths: create the SaleItem
    and deduct from the Inventory object. *)
Fixpoint add_items_and_deduct (sid : Z) (ds : list ItemData) : M unit :=
  match ds with
  | [] => ret tt
  | d :: rest =>
      let* _ := modify (add_sale_item sid (sale_item_of sid d)) in
      let* _ := modify (deduct_inventory (d_inventory d) (d_quantity d)) in
      add_items_and_deduct sid rest
  end.

(** [db.refresh(sale)] *)
Definition refresh_sale (sid : Z) : M (option Sale) :=
  gets (fun db => sales db !! sid).

Definition new_sale (date now : Z) (total : float) (sid : Z) : Sale :=
  mkSale sid date total SALE_COMPLETED SYNCED now [].

(** ** routers/sales.py *)

(** [SaleItemCreate]: pydantic has checked [quantity > 0]. *)
Record SaleItemCreate := mkSaleItemCreate { req_product_id : Z; req_quantity : Z }.

Definition item_data_of (pid q : Z) (product : Product) : ItemData :=
  mkItemData pid q (price product) (py_mul (price product) q) pid.

(** The first loop of [create_sale]: validate every item, check stock,
    accumulate [total_amount]. *)
Fixpoint create_sale_validate (its : list SaleItemCreate)
    (sale_items_data : list ItemData) (total_amount : float)
    : M (list ItemData * float) :=
  match its with
  | [] => ret (sale_items_data, total_amount)
  | item :: rest =>
      let pid := req_product_id item in
      let* product := query_product pid in
      match product with
      | None => raise (HTTPException 404
                  ("Product with id " ++ str_int pid ++ " not found"))
      | Some product =>
          let* inv := query_inventory pid in
          match inv with
          | None => raise (HTTPException 404
                      ("Inventory for product " ++ str_int pid ++ " not found"))
          | Some inv =>
              if quantity inv <? req_quantity item then
                raise (HTTPException 400
                  ("Insufficient stock for " ++ name product ++ ". Available: "
                     ++ str_int (quantity inv) ++ ", Requested: "
                     ++ str_int (req_quantity item)))
              else
                let d := item_data_of pid (req_quantity item) product in
                create_sale_validate rest (app sale_items_data [d])
                  (PrimFloat.add total_amount (d_subtotal d))
          end
      end
  end.

Definition create_sale (now : Z) (req : list SaleItemCreate) : M (option Sale) :=
  match req with
  | [] => raise (HTTPException 400 "Sale must contain at least one item")
  | _ =>
      let* '(sale_items_data, total_amount) := create_sale_validate req [] 0%float in
      let* sid := add_sale (new_sale now now total_amount) in
      let* _ := add_items_and_deduct sid sale_items_data in
      let* _ := commit in
      refresh_sale sid
  end.




(** ** routers/pos.py *)

Fixpoint pos_sale_validate (its : list SaleItemCreate)
    (sale_items_data : list ItemData) (total_amount : float)
    : M (list ItemData * float) :=
  match its with
  | [] => ret (sale_items_data, total_amount)
  | item :: rest =>
      let pid := req_product_id item in
      let* product := query_product pid in
      match product with
      | None => raise (HTTPException 404
                  ("Product with id " ++ str_int pid ++ " not found"))
      | Some product =>
          let* inv := query_inventory pid in
          match inv with
          | None => raise (HTTPException 404
                      ("Inventory for product " ++ str_int pid ++ " not found"))
          | Some inv =>
              if quantity inv <? req_quantity item then
                let* _ := rollback in
                raise (HTTPException 400
                  ("Insufficient stock for " ++ name product ++ ". Available: "
                     ++ str_int (quantity inv) ++ ", Requested: "
                     ++ str_int (req_quantity item)))
              else
                let d := item_data_of pid (req_quantity item) product in
                pos_sale_validate rest (app sale_items_data [d])
                  (PrimFloat.add total_amount (d_subtotal d))
          end
      end
  end.

Definition pos_sale (now : Z) (req : list SaleItemCreate) : M (option Sale) :=
  match req with
  | [] => raise (HTTPException 400 "Sale must contain at least one item")
  | _ =>
      try_except
        (let* '(sale_items_data, total_amount) := pos_sale_validate req [] 0%float in
         let* sid := add_sale (new_sale now now total_amount) in
         let* _ := add_items_and_deduct sid sale_items_data in
         let* _ := commit in
         refresh_sale sid)
        (fun e =>
           match e with
           | HTTPException _ _ => let* _ := rollback in raise e
           | _ => let* _ := rollback in
                  raise (HTTPException 500 ("Error processing sale: " ++ str_exc e))
           end)
  end.

(** ** routers/sync.py *)

Definition mark_synced (now : Z) (e : SyncQueue) : SyncQueue :=
  mkSyncQueue (transaction_type e) (payload e) SYNCED (created_at e)
    (Some now) (error_message e).
Definition mark_failed (msg : string) (e : SyncQueue) : SyncQueue :=
  mkSyncQueue (transaction_type e) (payload e) FAILED (created_at e)
    (synced_at e) (Some msg).

(** Update the session's SyncQueue object [sync_item] (the row [k]). *)
Definition update_entry (k : Z) (f : SyncQueue -> SyncQueue) : M unit :=
  modify (fun db => set_sync_queue (alter f k (sync_queue db)) db).

(** [json.loads(sync_item.payload)] *)
Definition json_loads (p : Payload) : M SalePayload :=
  match p with
  | PayloadJson v => ret v
  | PayloadInvalid m l c pos => raise (JSONDecodeError m l c pos)
  end.

(** Python truthiness of [item.get("product_id")] / [item.get("quantity")]:
    absent, null and 0 are falsy. *)
Definition truthy (v : option Z) : bool :=
  match v with None => false | Some z => negb (z =? 0) end.

(** [if not product_id or not quantity: raise ValueError(...)] *)
Definition item_format_ok (item : PayloadItem) : bool :=
  truthy (pi_product_id item) && truthy (pi_quantity item).

Fixpoint sync_validate (its : list PayloadItem)
    (sale_items_data : list ItemData) (total_amount : float)
    : M (list ItemData * float) :=
  match its with
  | [] => ret (sale_items_data, total_amount)
  | item :: rest =>
      match pi_product_id item, pi_quantity item with
      | Some product_id, Some q =>
          if negb (item_format_ok item) then
            raise (ValueError "Invalid sale item format")
          else
          let* product := query_product product_id in
          match product with
          | None => raise (ValueError
                      ("Product " ++ str_int product_id ++ " not found"))
          | Some product =>
              let* inv := query_inventory product_id in
              match inv with
              | None => raise (ValueError ("Inventory for product "
                           ++ str_int product_id ++ " not found"))
              | Some inv =>
                  if quantity inv <? q then
                    raise (ValueError
                      ("Insufficient stock for " ++ name product ++ ". "
                         ++ "Available: " ++ str_int (quantity inv)
                         ++ ", Requested: " ++ str_int q ++ ". "
                         ++ "Manual review required."))
                  else
                    let d := item_data_of product_id q product in
                    sync_validate rest (app sale_items_data [d])
                      (PrimFloat.add total_amount (d_subtotal d))
              end
          end
      | _, _ => raise (ValueError "Invalid sale item format")
      end
  end.

(** [payload.get("sale_date") or None]: a falsy date gives the column
    default, the commit time. *)
Definition sale_date_of (now : Z) (p : SalePayload) : Z :=
  match pl_sale_date p with
  | Some d => if d =? 0 then now else d
  | None => now
  end.

Definition _process_sale_sync (now : Z) (k : Z) (sync_item : SyncQueue) : M unit :=
  try_except
    (let* p := json_loads (payload sync_item) in
     let its := pl_items p in
     match its with
     | [] => raise (ValueError "Sale must contain at least one item")
     | _ =>
         let* '(sale_items_data, total_amount) := sync_validate its [] 0%float in
         let* sid := add_sale (new_sale (sale_date_of now p) now total_amount) in
         let* _ := add_items_and_deduct sid sale_items_data in
         update_entry k (mark_synced now)
     end)
    (fun e => raise e).

Fixpoint insert_by_created (x : Z * SyncQueue) (l : list (Z * SyncQueue))
    : list (Z * SyncQueue) :=
  match l with
  | [] => [x]
  | y :: rest =>
      if created_at x.2 <=? created_at y.2 then x :: l
      else y :: insert_by_created x rest
  end.

Fixpoint sort_by_created (l : list (Z * SyncQueue)) : list (Z * SyncQueue) :=
  match l with
  | [] => []
  | x :: rest => insert_by_created x (sort_by_created rest)
  end.

Definition is_pending (kv : Z * SyncQueue) : Prop := status kv.2 = PENDING.

(** [db.query(SyncQueue).filter(status == PENDING).order_by(created_at)]:
    the rows as the table lists them, then a stable sort on [created_at] (rows with
    equal [created_at] come in an order the database chooses). *)
Definition pending_items (db : DB) : list (Z * SyncQueue) :=
  sort_by_created (filter is_pending (map_to_list (sync_queue db))).

(** The body of the [for item in pending_items] loop. *)
Definition sync_entry (now : Z) (k : Z) (item : SyncQueue) (processed failed : Z)
    : M (Z * Z) :=
  try_except
    (if String.eqb (transaction_type item) "sale" then
       let* _ := _process_sale_sync now k item in
       ret (processed + 1, failed)
     else
       let* _ := update_entry k (mark_failed
                   ("Unknown transaction type: " ++ transaction_type item)) in
       ret (processed, failed + 1))
    (fun e =>
       let* _ := update_entry k (mark_failed (str_exc e)) in
       ret (processed, failed + 1)).

Fixpoint sync_loop (now : Z) (its : list (Z * SyncQueue)) (processed failed : Z)
    : M (Z * Z) :=
  match its with
  | [] => ret (processed, failed)
  | (k, item) :: rest =>
      let* '(processed, failed) := sync_entry now k item processed failed in
      sync_loop now rest processed failed
  end.

Definition process_sync_queue (now : Z) : M string :=
  let* pending := gets pending_items in
  match pending with
  | [] => ret "No pending items to sync"
  | _ =>
      let* '(processed, failed) := sync_loop now pending 0 0 in
      let* _ := commit in
      ret ("Sync complete. Processed: " ++ str_int processed
             ++ ", Failed: " ++ str_int failed)
  end.

(** ** The other routes of routers/sales.py and routers/sync.py *)

(** [get_sale]: [db.query(Sale).filter(Sale.id == sale_id).first()]. *)
Definition get_sale (sale_id_arg : Z) : M Sale :=
  let* sale := gets (fun db => sales db !! sale_id_arg) in
  match sale with
  | None => raise (HTTPException 404
              ("Sale with id " ++ str_int sale_id_arg ++ " not found"))
  | Some sale => ret sale
  end.




(** [timedelta(days=days)] in the seconds [sale_date] counts. *)
Definition seconds_per_day : Z := 86400.


(** [add_to_sync_queue] at time [now]; [qid] is the id the database gives
    the new row (one not in use). *)
Definition add_to_sync_queue (now qid : Z) (ttype : string) (pl : Payload)
    : M SyncQueue :=
  let queue_item := mkSyncQueue ttype pl PENDING now None None in
  let* _ := modify (fun db => set_sync_queue (<[qid := queue_item]> (sync_queue db)) db) in
  let* _ := commit in
  ret queue_item.

(** ** routers/inventory.py *)

(** [adjust_inventory(product_id, adjustment)]; the response is the
    product row read after the commit. *)
Definition adjust_inventory (product_id adjustment : Z) : M (option Product) :=
  let* inv := query_inventory product_id in
  match inv with
  | None => raise (HTTPException 404
              ("Inventory for product " ++ str_int product_id ++ " not found"))
  | Some inv =>
      let new_quantity := quantity inv + adjustment in
      if new_quantity <? 0 then
        raise (HTTPException 400
          ("Adjustment would result in negative inventory ("
             ++ str_int new_quantity ++ ")"))
      else
        let* _ := modify (fun db =>
                    set_inventory (<[product_id := set_quantity new_quantity inv]>
                                     (inventory db)) db) in
        let* _ := commit in
        query_product product_id
  end.

(** ** Sample states *)

Definition widget : Product := mkProduct "Widget" 2.5%float.

(** Product 1 with [stock] units in its Inventory row, no sales, the given queue. *)
Definition shop (stock : Z) (next_id : Z) (queue : gmap Z SyncQueue) : DB :=
  mkDB {[1 := widget]} {[1 := mkInventory 1 stock 10]} ∅ next_id queue.

Definition sale_payload (lines : list PayloadItem) : Payload :=
  PayloadJson (mkSalePayload lines None).

Definition line (pid q : option Z) : PayloadItem := mkPayloadItem pid q.

Definition queued_sale (created : Z) (lines : list PayloadItem) : SyncQueue :=
  mkSyncQueue "sale" (sale_payload lines) PENDING created None None.







Definition final_db {A} (r : (Exc + A) * DB) : DB := r.2.

(** ** Vocabulary of the properties *)

(** What the first loop records for a line: the catalog price of the product,
    [price * quantity], and the Inventory row of that product. *)
Definition data_ok (db : DB) (d : ItemData) : Prop :=
  ∃ p, products db !! d_product_id d = Some p ∧ d_unit_price d = price p ∧
       d_subtotal d = py_mul (price p) (d_quantity d) ∧
       d_inventory d = d_product_id d ∧ is_Some (inventory db !! d_product_id d).

(** A persisted SaleItem: its unit price is the product's catalog price and
    its subtotal is [unit_price * quantity]. *)
Definition sale_item_ok (prods : gmap Z Product) (si : SaleItem) : Prop :=
  ∃ p, prods !! si_product_id si = Some p ∧ si_unit_price si = price p ∧
       si_subtotal si = py_mul (si_unit_price si) (si_quantity si).

(** [total_amount] is the running float sum [0.0 + s1 + s2 + ...] of the
    items' subtotals, as Python adds them. *)
Definition sale_total_ok (sale : Sale) : Prop :=
  total_amount sale = fold_left PrimFloat.add (map si_subtotal (items sale)) 0%float.

(** Units of product [k] over a list of sale items. *)
Definition sold_qty (k : Z) (its : list SaleItem) : Z :=
  fold_right Z.add 0 (map si_quantity (filter (fun si => si_product_id si = k) its)).


Definition status_at (db : DB) (k : Z) : option SyncStatus :=
  status <$> sync_queue db !! k.

Definition count_status (db : DB) (st : SyncStatus) (ks : list Z) : Z :=
  Z.of_nat (length (filter (fun k => status_at db k = Some st) ks)).


(** One pass of the second loop over the session's objects. *)
Definition persist_step (sid : Z) (db : DB) (d : ItemData) : DB :=
  deduct_inventory (d_inventory d) (d_quantity d) (add_sale_item sid (sale_item_of sid d) db).

(** Units the second loop deducts from the Inventory row [k]. *)
Definition deducted (k : Z) (ds : list ItemData) : Z :=
  fold_right Z.add 0 (map d_quantity (filter (fun d => d_inventory d = k) ds)).

Definition add_items_all (its : list SaleItem) (s : Sale) : Sale :=
  mkSale (sale_id s) (sale_date s) (total_amount s) (sale_status s)
    (sync_status s) (sale_created_at s) (app (items s) its).

(** A request line [create_sale] accepts: its product and Inventory row
    exist and it asks for no more than the stock. *)
Definition line_ok (db : DB) (it : SaleItemCreate) : Prop :=
  ∃ p inv, products db !! req_product_id it = Some p ∧
    inventory db !! req_product_id it = Some inv ∧ req_quantity it <= quantity inv.

(** The session after the loop body marks entry [k] FAILED with [msg]. *)
Definition failed_entry (k : Z) (msg : string) (s : Session) : Session :=
  mkSession (committed s)
    (set_sync_queue (alter (mark_failed msg) k (sync_queue (working s))) (working s)).

(** Every Inventory quantity is non-negative. *)
Definition stock_nonneg (db : DB) : Prop :=
  ∀ k i, inventory db !! k = Some i → 0 <= quantity i.

(** The [days] window of [get_sales]: every sale when [days] is [None] or
    0, otherwise the sales dated at most [days] days before [now]. *)
Definition in_window (now : Z) (days : option Z) (sale : Sale) : Prop :=
  match days with
  | Some d => d = 0 ∨ now - d * seconds_per_day <= sale_date sale
  | None => True
  end.

#[global] Instance in_window_dec now days : ∀ sale, Decision (in_window now days sale).
Proof. intros sale. unfold in_window. destruct days; apply _. Defined.

(** ** Proofs *)

Ltac unfold_m :=
  unfold bind, ret, raise, gets, modify, commit, rollback, try_except,
    query_product, query_inventory, add_sale, update_entry, refresh_sale in *.

Lemma bind_gets {A B} (f : DB -> A) (k : A -> M B) s :
  bind (gets f) k s = k (f (working s)) s.
Proof. reflexivity. Qed.

Lemma create_sale_validate_spec its acc tot s :
  match create_sale_validate its acc tot s with
  | Ok (ds, tot') s' =>
      s' = s ∧ ∃ ds', ds = app acc ds' ∧
        tot' = fold_left PrimFloat.add (map d_subtotal ds') tot ∧
        Forall (data_ok (working s)) ds' ∧
        map (fun d => (d_product_id d, d_quantity d)) ds' =
        map (fun it => (req_product_id it, req_quantity it)) its
  | Err _ s' => s' = s
  end.
Proof.
  revert acc tot. induction its as [|it rest IH]; intros acc tot; cbn [create_sale_validate].
  - split; [done|]. exists []. rewrite app_nil_r. done.
  - unfold query_product, query_inventory. rewrite bind_gets.
    destruct (products (working s) !! req_product_id it) as [p|] eqn:Hp; [|done].
    rewrite bind_gets.
    destruct (inventory (working s) !! req_product_id it) as [inv|] eqn:Hi; [|done].
    destruct (quantity inv <? req_quantity it) eqn:Hq; [done|].
    specialize (IH (app acc [item_data_of (req_product_id it) (req_quantity it) p])
                  (PrimFloat.add tot (py_mul (price p) (req_quantity it)))).
    destruct (create_sale_validate rest _ _ s) as [[ds tot'] s'|e s']; [|done].
    destruct IH as [-> [ds' (-> & -> & Hf & Hm)]]. split; [done|].
    exists (item_data_of (req_product_id it) (req_quantity it) p :: ds').
    split; [rewrite <- app_assoc; reflexivity|]. split; [done|]. split.
    + constructor; [|done]. exists p. simpl. rewrite Hi. repeat split; done.
    + simpl. by rewrite Hm.
Qed.

Lemma pos_sale_validate_spec its acc tot s :
  match pos_sale_validate its acc tot s with
  | Ok (ds, tot') s' =>
      s' = s ∧ ∃ ds', ds = app acc ds' ∧
        tot' = fold_left PrimFloat.add (map d_subtotal ds') tot ∧
        Forall (data_ok (working s)) ds'
  | Err _ s' => committed s' = committed s ∧
                (s' = s ∨ s' = mkSession (committed s) (committed s))
  end.
Proof.
  revert acc tot. induction its as [|it rest IH]; intros acc tot; cbn [pos_sale_validate].
  - split; [done|]. exists []. rewrite app_nil_r. done.
  - unfold query_product, query_inventory. rewrite bind_gets.
    destruct (products (working s) !! req_product_id it) as [p|] eqn:Hp; [|by split; [|left]].
    rewrite bind_gets.
    destruct (inventory (working s) !! req_product_id it) as [inv|] eqn:Hi; [|by split; [|left]].
    destruct (quantity inv <? req_quantity it) eqn:Hq; [by split; [|right]|].
    specialize (IH (app acc [item_data_of (req_product_id it) (req_quantity it) p])
                  (PrimFloat.add tot (py_mul (price p) (req_quantity it)))).
    destruct (pos_sale_validate rest _ _ s) as [[ds tot'] s'|e s']; [|done].
    destruct IH as [-> [ds' (-> & -> & Hf)]]. split; [done|].
    exists (item_data_of (req_product_id it) (req_quantity it) p :: ds').
    split; [rewrite <- app_assoc; reflexivity|]. split; [done|].
    constructor; [|done]. exists p. simpl. rewrite Hi. repeat split; done.
Qed.


Lemma sync_validate_spec its acc tot s :
  match sync_validate its acc tot s with
  | Ok (ds, tot') s' =>
      s' = s ∧ ∃ ds', ds = app acc ds' ∧
        tot' = fold_left PrimFloat.add (map d_subtotal ds') tot ∧
        Forall (data_ok (working s)) ds' ∧
        map (fun d => (Some (d_product_id d), Some (d_quantity d))) ds' =
        map (fun it => (pi_product_id it, pi_quantity it)) its
  | Err e s' => s' = s ∧ str_exc e ≠ ""
  end.
Proof.
  revert acc tot. induction its as [|it rest IH]; intros acc tot; cbn [sync_validate].
  - split; [done|]. exists []. rewrite app_nil_r. done.
  - destruct (pi_product_id it) as [pid|] eqn:Hpid, (pi_quantity it) as [q|] eqn:Hqq;
      try (split; [done|discriminate]).
    destruct (negb (item_format_ok it)); [split; [done|discriminate]|].
    unfold query_product, query_inventory. rewrite bind_gets.
    destruct (products (working s) !! pid) as [p|] eqn:Hp; [|split; [done|discriminate]].
    rewrite bind_gets.
    destruct (inventory (working s) !! pid) as [inv|] eqn:Hi; [|split; [done|discriminate]].
    destruct (quantity inv <? q) eqn:Hq; [split; [done|discriminate]|].
    specialize (IH (app acc [item_data_of pid q p]) (PrimFloat.add tot (py_mul (price p) q))).
    destruct (sync_validate rest _ _ s) as [[ds tot'] s'|e s']; [|done].
    destruct IH as [-> [ds' (-> & -> & Hf & Hm)]]. split; [done|].
    exists (item_data_of pid q p :: ds').
    split; [rewrite <- app_assoc; reflexivity|]. split; [done|]. split.
    + constructor; [|done]. exists p. simpl. rewrite Hi. repeat split; done.
    + simpl. by rewrite Hm, Hpid, Hqq.
Qed.

Lemma add_items_and_deduct_eq sid ds s :
  add_items_and_deduct sid ds s =
  Ok tt (mkSession (committed s) (fold_left (persist_step sid) ds (working s))).
Proof.
  revert s. induction ds as [|d rest IH]; intros s; [by destruct s|].
  cbn [add_items_and_deduct fold_left]. unfold bind, modify. rewrite IH. reflexivity.
Qed.

Lemma persist_frame sid ds db :
  products (fold_left (persist_step sid) ds db) = products db ∧
  sync_queue (fold_left (persist_step sid) ds db) = sync_queue db ∧
  next_sale_id (fold_left (persist_step sid) ds db) = next_sale_id db.
Proof.
  revert db. induction ds as [|d rest IH]; intros db; [done|].
  simpl. destruct (IH (persist_step sid db d)) as (-> & -> & ->). done.
Qed.

Lemma add_item_all si l sale :
  add_item si (add_items_all l sale) = add_items_all (app l [si]) sale.
Proof. unfold add_item, add_items_all. simpl. by rewrite app_assoc. Qed.

Lemma persist_sales sid ds db :
  sales (fold_left (persist_step sid) ds db) =
  alter (add_items_all (map (sale_item_of sid) ds)) sid (sales db).
Proof.
  assert (Hgen : ∀ l db', sales db' = alter (add_items_all l) sid (sales db) →
    sales (fold_left (persist_step sid) ds db') =
    alter (add_items_all (app l (map (sale_item_of sid) ds))) sid (sales db)).
  { induction ds as [|d rest IH]; intros l db' H.
    - simpl. by rewrite app_nil_r.
    - simpl. rewrite (IH (app l [sale_item_of sid d])).
      + by rewrite <- app_assoc.
      + unfold persist_step, deduct_inventory, add_sale_item, set_inventory, set_sales. simpl.
        rewrite H, alter_alter_eq. apply alter_ext. intros x _. apply add_item_all. }
  rewrite (Hgen [] db); [done|].
  apply map_eq. intros k. rewrite lookup_alter. unfold add_items_all.
  destruct (decide (sid = k)) as [<-|]; [|done].
  destruct (sales db !! sid) as [[]|]; simpl; [by rewrite app_nil_r|done].
Qed.

Lemma persist_inventory sid ds db k :
  inventory (fold_left (persist_step sid) ds db) !! k =
  (fun i => set_quantity (quantity i - deducted k ds) i) <$> inventory db !! k.
Proof.
  revert db. induction ds as [|d rest IH]; intros db.
  - simpl. destruct (inventory db !! k) as [[]|]; simpl; [|done]. by rewrite Z.sub_0_r.
  - simpl. rewrite IH. unfold persist_step, deduct_inventory, add_sale_item, set_inventory, set_sales.
    simpl. rewrite lookup_alter. unfold deducted. rewrite filter_cons.
    destruct (decide (d_inventory d = k)) as [<-|Hne]; [|done].
    simpl. destruct (inventory db !! d_inventory d) as [[]|]; simpl; [|done].
    unfold set_quantity. simpl. do 2 f_equal. lia.
Qed.

(** The sale the three commit paths write: the row added at the next id,
    then the second loop over the validated lines. *)
Lemma persisted_sale_ok db ds tot date now :
  Forall (data_ok db) ds →
  tot = fold_left PrimFloat.add (map d_subtotal ds) 0%float →
  let nid := next_sale_id db in
  let sale := add_items_all (map (sale_item_of nid) ds) (new_sale date now tot nid) in
  sales (fold_left (persist_step nid) ds
           (set_sales (<[nid := new_sale date now tot nid]> (sales db)) (nid + 1) db)) !! nid
    = Some sale ∧
  sale_id sale = nid ∧ sale_total_ok sale ∧ Forall (sale_item_ok (products db)) (items sale).
Proof.
  intros Hf Htot nid sale. rewrite persist_sales. simpl.
  rewrite lookup_alter, lookup_insert_eq, decide_True by done. split; [done|]. split; [done|]. split.
  - unfold sale_total_ok, sale, add_items_all, new_sale. simpl.
    rewrite map_map. exact Htot.
  - unfold sale, add_items_all, new_sale. simpl. apply Forall_map.
    eapply Forall_impl; [exact Hf|]. intros d (p & Hp & Hu & Hs & _ & _).
    exists p. simpl. rewrite Hu. repeat split; done.
Qed.

Lemma create_sale_err now req s e s' : create_sale now req s = Err e s' → s' = s.
Proof.
  destruct req as [|it rest]; [by intros [= _ <-]|]. unfold create_sale, bind.
  pose proof (create_sale_validate_spec (it :: rest) [] 0%float s) as Hv.
  destruct (create_sale_validate (it :: rest) [] 0%float s) as [[ds tot] s1|e1 s1].
  - destruct Hv as [-> _]. unfold add_sale. rewrite add_items_and_deduct_eq. discriminate.
  - intros [= _ <-]. exact Hv.
Qed.

Lemma create_sale_ok now req s r s' :
  create_sale now req s = Ok r s' →
  ∃ sale, r = Some sale ∧ committed s' = working s' ∧
    products (working s') = products (working s) ∧
    sales (working s') !! sale_id sale = Some sale ∧
    sale_total_ok sale ∧ Forall (sale_item_ok (products (working s))) (items sale).
Proof.
  destruct req as [|it rest]; [discriminate|]. unfold create_sale, bind.
  pose proof (create_sale_validate_spec (it :: rest) [] 0%float s) as Hv.
  destruct (create_sale_validate (it :: rest) [] 0%float s) as [[ds tot] s1|e1 s1];
    [|discriminate].
  destruct Hv as [-> [ds' (-> & -> & Hf & _)]]. unfold add_sale.
  rewrite add_items_and_deduct_eq. unfold commit, refresh_sale, gets. simpl.
  intros [= <- <-]. simpl.
  destruct (persisted_sale_ok (working s) ds' _ now now Hf eq_refl)
    as (Hl & Hid & Ht & Hi). rewrite Hl.
  eexists. split; [done|]. split; [done|]. split.
  { by destruct (persist_frame (next_sale_id (working s)) ds'
      (set_sales (<[next_sale_id (working s) := new_sale now now
         (fold_left PrimFloat.add (map d_subtotal ds') 0%float) (next_sale_id (working s))]>
         (sales (working s))) (next_sale_id (working s) + 1) (working s))) as (-> & _). }
  rewrite Hid, Hl. done.
Qed.

Lemma pos_sale_err now req s e s' :
  pos_sale now req s = Err e s' → committed s' = committed s.
Proof.
  destruct req as [|it rest]; [by intros [= _ <-]|]. unfold pos_sale, try_except, bind.
  pose proof (pos_sale_validate_spec (it :: rest) [] 0%float s) as Hv.
  destruct (pos_sale_validate (it :: rest) [] 0%float s) as [[ds tot] s1|e1 s1].
  - destruct Hv as [-> _]. unfold add_sale. rewrite add_items_and_deduct_eq. discriminate.
  - destruct Hv as [Hc _]. unfold rollback, raise.
    destruct e1; intros [= _ <-]; exact Hc.
Qed.

Lemma pos_sale_ok now req s r s' :
  pos_sale now req s = Ok r s' →
  ∃ sale, r = Some sale ∧ committed s' = working s' ∧
    products (working s') = products (working s) ∧
    sales (working s') !! sale_id sale = Some sale ∧
    sale_total_ok sale ∧ Forall (sale_item_ok (products (working s))) (items sale).
Proof.
  destruct req as [|it rest]; [discriminate|]. unfold pos_sale, try_except, bind.
  pose proof (pos_sale_validate_spec (it :: rest) [] 0%float s) as Hv.
  destruct (pos_sale_validate (it :: rest) [] 0%float s) as [[ds tot] s1|e1 s1].
  2:{ unfold rollback, raise. destruct e1; discriminate. }
  destruct Hv as [-> [ds' (-> & -> & Hf)]]. unfold add_sale.
  rewrite add_items_and_deduct_eq. unfold commit, refresh_sale, gets. simpl.
  intros [= <- <-]. simpl.
  destruct (persisted_sale_ok (working s) ds' _ now now Hf eq_refl)
    as (Hl & Hid & Ht & Hi). rewrite Hl.
  eexists. split; [done|]. split; [done|]. split.
  { by destruct (persist_frame (next_sale_id (working s)) ds'
      (set_sales (<[next_sale_id (working s) := new_sale now now
         (fold_left PrimFloat.add (map d_subtotal ds') 0%float) (next_sale_id (working s))]>
         (sales (working s))) (next_sale_id (working s) + 1) (working s))) as (-> & _). }
  rewrite Hid, Hl. done.
Qed.


(** What a replay that commits leaves in the session. *)
Lemma process_sale_sync_ok now k item s u s' :
  _process_sale_sync now k item s = Ok u s' →
  ∃ p ds, payload item = PayloadJson p ∧
    Forall (data_ok (working s)) ds ∧
    map (fun d => (Some (d_product_id d), Some (d_quantity d))) ds =
      map (fun it => (pi_product_id it, pi_quantity it)) (pl_items p) ∧
    committed s' = committed s ∧
    let nid := next_sale_id (working s) in
    let tot := fold_left PrimFloat.add (map d_subtotal ds) 0%float in
    let db1 := fold_left (persist_step nid) ds
                 (set_sales (<[nid := new_sale (sale_date_of now p) now tot nid]>
                               (sales (working s))) (nid + 1) (working s)) in
    working s' = set_sync_queue (alter (mark_synced now) k (sync_queue db1)) db1.
Proof.
  unfold _process_sale_sync, try_except, bind, json_loads.
  destruct (payload item) as [p|m l c pos]; cbn; [|discriminate].
  destruct (pl_items p) as [|it rest] eqn:Hits; [discriminate|].
  pose proof (sync_validate_spec (it :: rest) [] 0%float s) as Hv.
  destruct (sync_validate (it :: rest) [] 0%float s) as [[ds tot] s1|e1 s1];
    [|discriminate].
  destruct Hv as [-> [ds' (-> & -> & Hf & Hm)]]. unfold add_sale.
  rewrite add_items_and_deduct_eq. unfold update_entry, modify. simpl.
  intros [= _ <-]. exists p, ds'. rewrite Hits. repeat split; done.
Qed.

Lemma sync_queue_persisted now k item s u s' :
  _process_sale_sync now k item s = Ok u s' →
  committed s' = committed s ∧
  sync_queue (working s') = alter (mark_synced now) k (sync_queue (working s)).
Proof.
  intros H. destruct (process_sale_sync_ok _ _ _ _ _ _ H)
    as (p & ds & _ & _ & _ & Hc & Hw). split; [done|].
  rewrite Hw. simpl. f_equal.
  destruct (persist_frame (next_sale_id (working s)) ds
    (set_sales (<[next_sale_id (working s) :=
        new_sale (sale_date_of now p) now
          (fold_left PrimFloat.add (map d_subtotal ds) 0%float)
          (next_sale_id (working s))]> (sales (working s)))
       (next_sale_id (working s) + 1) (working s))) as (_ & -> & _).
  done.
Qed.


Lemma count_status_cons db st k ks :
  count_status db st (k :: ks) =
  (if decide (status_at db k = Some st) then 1 else 0) + count_status db st ks.
Proof.
  unfold count_status. rewrite filter_cons.
  destruct (decide (status_at db k = Some st)); simpl; lia.
Qed.

Lemma count_status_frame db db' st ks :
  (∀ k, k ∈ ks → sync_queue db' !! k = sync_queue db !! k) →
  count_status db' st ks = count_status db st ks.
Proof.
  induction ks as [|k ks IH]; intros H; [done|].
  rewrite !count_status_cons, IH by (intros k' Hk'; apply H; by right).
  assert (Hs : status_at db' k = status_at db k)
    by (unfold status_at; rewrite H; [done|left]).
  by rewrite Hs.
Qed.














Lemma sold_qty_persisted sid ds k :
  Forall (fun d => d_inventory d = d_product_id d) ds →
  sold_qty k (map (sale_item_of sid) ds) = deducted k ds.
Proof.
  intros Hf. induction Hf as [|d ds Hd Hf IH]; [done|].
  unfold sold_qty, deducted in *. cbn [map]. rewrite !filter_cons.
  cbn [si_product_id sale_item_of]. rewrite Hd.
  destruct (decide (d_product_id d = k)); simpl; by rewrite IH.
Qed.








(** * The claims *)

(** C1 (stock non-negativity).  The first loop checks every line against
    the Inventory quantity before any deduction, so two lines of one product
    each pass against the full stock and the second loop deducts both: from
    5 units, a live sale of 3 + 3 units of product 1 commits and leaves -1,
    and the same payload replayed from the queue does the same. *)
Lemma C1_duplicate_lines_drive_stock_negative :
  inventory (shop 5 1 ∅) !! 1 = Some (mkInventory 1 5 10) ∧
  match run (create_sale 100 [mkSaleItemCreate 1 3; mkSaleItemCreate 1 3]) (shop 5 1 ∅) with
  | (inr (Some _), db') => inventory db' !! 1 = Some (mkInventory 1 (-1) 10)
  | _ => False
  end ∧
  match run (process_sync_queue 100)
          (shop 5 1 {[1 := queued_sale 1 [line (Some 1) (Some 3); line (Some 1) (Some 3)]]}) with
  | (inr msg, db') =>
      msg = "Sync complete. Processed: 1, Failed: 0" ∧
      inventory db' !! 1 = Some (mkInventory 1 (-1) 10)
  | _ => False
  end.
Proof. split; [reflexivity|]. split; vm_compute; [reflexivity|]. split; reflexivity. Qed.

(** C2 (atomicity).  When [create_sale] (and [pos_sale]) fails, for any
    reason, the database after the request is the one before it: no
    Inventory quantity changed and no Sale or SaleItem was written. *)
Theorem C2_failed_sale_changes_nothing :
  (∀ now req db,
     match run (create_sale now req) db with
     | (inl _, db') => db' = db
     | (inr _, _) => True
     end) ∧
  (∀ now req db,
     match run (pos_sale now req) db with
     | (inl _, db') => db' = db
     | (inr _, _) => True
     end).
Proof.
  split; intros now req db; unfold run.
  - destruct (create_sale now req (mkSession db db)) as [a s'|e s'] eqn:H; [done|].
    apply create_sale_err in H. by subst.
  - destruct (pos_sale now req (mkSession db db)) as [a s'|e s'] eqn:H; [done|].
    apply pos_sale_err in H. done.
Qed.



(** C7 (total correctness).  A sale committed by [create_sale], [pos_sale]
    or a replay is in the database with every item's unit price the
    product's catalog price (read in the same session), its subtotal
    [unit_price * quantity], and [total_amount] the float sum of the
    subtotals in item order. *)
Theorem C7_committed_sale_totals :
  (∀ now req db,
     match run (create_sale now req) db with
     | (inr (Some sale), db') =>
         sales db' !! sale_id sale = Some sale ∧ products db' = products db ∧
         sale_total_ok sale ∧ Forall (sale_item_ok (products db')) (items sale)
     | (inr None, _) => False
     | (inl _, _) => True
     end) ∧
  (∀ now req db,
     match run (pos_sale now req) db with
     | (inr (Some sale), db') =>
         sales db' !! sale_id sale = Some sale ∧ products db' = products db ∧
         sale_total_ok sale ∧ Forall (sale_item_ok (products db')) (items sale)
     | (inr None, _) => False
     | (inl _, _) => True
     end) ∧
  (∀ now k item s,
     match _process_sale_sync now k item s with
     | Ok _ s' =>
         ∃ sale, sales (working s') !! next_sale_id (working s) = Some sale ∧
           products (working s') = products (working s) ∧
           sale_total_ok sale ∧ Forall (sale_item_ok (products (working s'))) (items sale)
     | Err _ _ => True
     end).
Proof.
  split; [|split].
  - intros now req db. unfold run.
    destruct (create_sale now req (mkSession db db)) as [r s'|e s'] eqn:H; [|done].
    destruct (create_sale_ok _ _ _ _ _ H) as (sale & -> & Hc & Hpr & Hl & Ht & Hi).
    simpl in *. rewrite Hc, Hpr. done.
  - intros now req db. unfold run.
    destruct (pos_sale now req (mkSession db db)) as [r s'|e s'] eqn:H; [|done].
    destruct (pos_sale_ok _ _ _ _ _ H) as (sale & -> & Hc & Hpr & Hl & Ht & Hi).
    simpl in *. rewrite Hc, Hpr. done.
  - intros now k item s.
    destruct (_process_sale_sync now k item s) as [u s'|e s'] eqn:H; [|done].
    destruct (process_sale_sync_ok _ _ _ _ _ _ H) as (p & ds & _ & Hf & _ & _ & Hw).
    set (nid := next_sale_id (working s)) in Hw.
    destruct (persisted_sale_ok (working s) ds _ (sale_date_of now p) now Hf eq_refl)
      as (Hl & _ & Ht & Hi).
    eexists. rewrite Hw. simpl. split; [exact Hl|].
    destruct (persist_frame nid ds
      (set_sales (<[nid := new_sale (sale_date_of now p) now
         (fold_left PrimFloat.add (map d_subtotal ds) 0%float) nid]>
         (sales (working s))) (nid + 1) (working s))) as (Hpr & _ & _).
    rewrite Hpr. simpl. done.
Qed.

(** C8 (line quantity positivity).  The live endpoints take only
    quantities > 0 (the [SaleItemBase] schema), but the replay's format
    check lets a negative quantity through: the entry is SYNCED, a SaleItem
    with quantity -1 is persisted and the stock of product 1 goes from 5 up
    to 6. *)
Lemma C8_replay_persists_negative_quantity :
  match run (process_sync_queue 100)
          (shop 5 1 {[1 := queued_sale 1 [line (Some 1) (Some (-1))]]}) with
  | (inr msg, db') =>
      msg = "Sync complete. Processed: 1, Failed: 0" ∧
      (map si_quantity ∘ items) <$> sales db' !! 1 = Some [-1] ∧
      quantity <$> inventory db' !! 1 = Some 6 ∧
      status_at db' 1 = Some SYNCED
  | _ => False
  end.
Proof. vm_compute. repeat split; reflexivity. Qed.

(** C6 (successful replay).  When the replay of entry [k] commits, the
    entry becomes SYNCED with [synced_at = now] and every other column as
    it was, the other entries are untouched, and the new Sale is the row
    [next_sale_id].  The entry itself records nothing about that Sale: the
    SyncQueue table has no column linking to it. *)
Theorem C6_replay_marks_entry_synced : ∀ now k item s,
  match _process_sale_sync now k item s with
  | Ok _ s' =>
      committed s' = committed s ∧
      (∀ e, sync_queue (working s) !! k = Some e →
         sync_queue (working s') !! k =
           Some (mkSyncQueue (transaction_type e) (payload e) SYNCED
                   (created_at e) (Some now) (error_message e))) ∧
      (∀ k', k' ≠ k → sync_queue (working s') !! k' = sync_queue (working s) !! k') ∧
      is_Some (sales (working s') !! next_sale_id (working s))
  | Err _ _ => True
  end.
Proof.
  intros now k item s.
  destruct (_process_sale_sync now k item s) as [u s'|e s'] eqn:H; [|done].
  destruct (sync_queue_persisted _ _ _ _ _ _ H) as [Hc Hq].
  split; [done|]. split.
  { intros e He. rewrite Hq, lookup_alter, He, decide_True by done. done. }
  split.
  { intros k' Hk'. rewrite Hq, lookup_alter. by rewrite decide_False by done. }
  destruct (process_sale_sync_ok _ _ _ _ _ _ H) as (p & ds & _ & Hf & _ & _ & Hw).
  destruct (persisted_sale_ok (working s) ds _ (sale_date_of now p) now Hf eq_refl)
    as (Hl & _).
  rewrite Hw. simpl. eexists. exact Hl.
Qed.

(** C6, the link.  Replaying the same entry on two databases whose next
    Sale id differs (1 and 7) creates the Sale at row 1 in one and at row 7
    in the other, yet leaves the entry identical in both: no column of the
    entry identifies the Sale it produced. *)
Lemma C6_entry_carries_no_sale_link :
  let q := {[1 := queued_sale 1 [line (Some 1) (Some 2)]]} in
  let dbA := final_db (run (process_sync_queue 100) (shop 5 1 q)) in
  let dbB := final_db (run (process_sync_queue 100) (shop 5 7 q)) in
  sync_queue dbA !! 1 = sync_queue dbB !! 1 ∧
  status_at dbA 1 = Some SYNCED ∧
  is_Some (sales dbA !! 1) ∧ sales dbA !! 7 = None ∧
  is_Some (sales dbB !! 7) ∧ sales dbB !! 1 = None.
Proof.
  vm_compute. split; [reflexivity|]. split; [reflexivity|].
  split; [eexists; reflexivity|]. split; [reflexivity|].
  split; [eexists; reflexivity|]. reflexivity.
Qed.








(** * Further properties of the code *)



Lemma create_sale_trace now req s r s' :
  create_sale now req s = Ok r s' →
  ∃ ds, Forall (data_ok (working s)) ds ∧
    map (fun d => (d_product_id d, d_quantity d)) ds =
      map (fun it => (req_product_id it, req_quantity it)) req ∧
    let nid := next_sale_id (working s) in
    let tot := fold_left PrimFloat.add (map d_subtotal ds) 0%float in
    committed s' = working s' ∧
    working s' = fold_left (persist_step nid) ds
      (set_sales (<[nid := new_sale now now tot nid]> (sales (working s))) (nid + 1)
         (working s)) ∧
    r = Some (add_items_all (map (sale_item_of nid) ds) (new_sale now now tot nid)).
Proof.
  destruct req as [|it rest]; [discriminate|]. unfold create_sale, bind.
  pose proof (create_sale_validate_spec (it :: rest) [] 0%float s) as Hv.
  destruct (create_sale_validate (it :: rest) [] 0%float s) as [[ds tot] s1|e1 s1];
    [|discriminate].
  destruct Hv as [-> [ds' (-> & -> & Hf & Hm)]]. unfold add_sale.
  rewrite add_items_and_deduct_eq. unfold commit, refresh_sale, gets. simpl.
  intros [= <- <-]. simpl. exists ds'. split; [done|]. split; [done|].
  destruct (persisted_sale_ok (working s) ds' _ now now Hf eq_refl) as (Hl & _).
  split; [done|]. split; [done|]. exact Hl.
Qed.

Lemma create_sale_run_effect : ∀ now req db,
  match run (create_sale now req) db with
  | (inr (Some sale), db') =>
      sale_id sale = next_sale_id db ∧
      sales db' = <[sale_id sale := sale]> (sales db) ∧
      next_sale_id db' = next_sale_id db + 1 ∧
      products db' = products db ∧ sync_queue db' = sync_queue db ∧
      map (fun si => (si_product_id si, si_quantity si)) (items sale) =
        map (fun it => (req_product_id it, req_quantity it)) req ∧
      ∀ k, inventory db' !! k =
        (fun i => set_quantity (quantity i - sold_qty k (items sale)) i) <$> inventory db !! k
  | (inr None, _) => False
  | (inl _, db') => db' = db
  end.
Proof.
  intros now req db. unfold run.
  destruct (create_sale now req (mkSession db db)) as [r s'|e s'] eqn:H.
  2:{ apply create_sale_err in H. by subst. }
  destruct (create_sale_trace _ _ _ _ _ H) as (ds & Hf & Hm & Hc & Hw & ->).
  simpl in *. rewrite Hc, Hw.
  set (nid := next_sale_id db).
  set (tot := fold_left PrimFloat.add (map d_subtotal ds) 0%float).
  set (db0 := set_sales (<[nid := new_sale now now tot nid]> (sales db)) (nid + 1) db).
  destruct (persist_frame nid ds db0) as (Hp & Hq & Hn).
  split; [done|]. split.
  { rewrite persist_sales. simpl. by rewrite alter_insert_eq. }
  split; [by rewrite Hn|]. split; [by rewrite Hp|]. split; [by rewrite Hq|]. split.
  { simpl. rewrite map_map. exact Hm. }
  intros k. rewrite persist_inventory. simpl. rewrite sold_qty_persisted; [done|].
  eapply Forall_impl; [exact Hf|]. by intros d (p & _ & _ & _ & ? & _).
Qed.

(** X2.  What a successful [create_sale] writes: the new Sale at the next
    id, with one item per request line (same product and quantity, in
    order); for every product the stock drops by the units its lines sold,
    and nothing else changes.  A failed call changes nothing. *)
Theorem create_sale_effect : ∀ now req db,
  match run (create_sale now req) db with
  | (inr (Some sale), db') =>
      sale_id sale = next_sale_id db ∧
      sales db' = <[sale_id sale := sale]> (sales db) ∧
      next_sale_id db' = next_sale_id db + 1 ∧
      products db' = products db ∧ sync_queue db' = sync_queue db ∧
      map (fun si => (si_product_id si, si_quantity si)) (items sale) =
        map (fun it => (req_product_id it, req_quantity it)) req ∧
      ∀ k, inventory db' !! k =
        (fun i => set_quantity (quantity i - sold_qty k (items sale)) i) <$> inventory db !! k
  | (inr None, _) => False
  | (inl _, db') => db' = db
  end.
Proof. exact create_sale_run_effect. Qed.

Lemma create_sale_validate_ok_iff its acc tot s :
  (∃ r, create_sale_validate its acc tot s = Ok r s) ↔ Forall (line_ok (working s)) its.
Proof.
  revert acc tot. induction its as [|it rest IH]; intros acc tot;
    cbn [create_sale_validate].
  - split; [done|]. intros _. by eexists.
  - rewrite Forall_cons. unfold query_product, query_inventory. rewrite bind_gets.
    destruct (products (working s) !! req_product_id it) as [p|] eqn:Hp.
    2:{ split; [by intros [r Hr]|]. intros [(p & i & Hp' & _) _]. congruence. }
    rewrite bind_gets.
    destruct (inventory (working s) !! req_product_id it) as [inv|] eqn:Hi.
    2:{ split; [by intros [r Hr]|]. intros [(p' & i & _ & Hi' & _) _]. congruence. }
    destruct (quantity inv <? req_quantity it) eqn:Hq.
    + apply Z.ltb_lt in Hq. split; [by intros [r Hr]|].
      intros [(p' & i & _ & Hi' & Hle) _]. rewrite Hi in Hi'. injection Hi' as <-. lia.
    + apply Z.ltb_ge in Hq. rewrite IH. split; [|by intros [_ H]].
      intros H. split; [|done]. exists p, inv. done.
Qed.


Lemma create_sale_ok_lines now req s r s' :
  create_sale now req s = Ok r s' → Forall (line_ok (working s)) req.
Proof.
  destruct req as [|it rest]; [discriminate|]. unfold create_sale, bind.
  pose proof (create_sale_validate_spec (it :: rest) [] 0%float s) as Hv.
  pose proof (create_sale_validate_ok_iff (it :: rest) [] 0%float s) as Hiff.
  destruct (create_sale_validate (it :: rest) [] 0%float s) as [r1 s1|e s1];
    [|discriminate].
  intros _. apply Hiff. destruct r1 as [ds tot]. destruct Hv as [-> _]. by eexists.
Qed.

Lemma sold_qty_nodup k its :
  NoDup (map si_product_id its) →
  (sold_qty k its = 0 ∧ ∀ si, si ∈ its → si_product_id si ≠ k) ∨
  (∃ si, si ∈ its ∧ si_product_id si = k ∧ sold_qty k its = si_quantity si).
Proof.
  induction its as [|si rest IH]; intros Hnd.
  - left. split; [done|]. intros si Hin. by apply elem_of_nil in Hin.
  - cbn [map] in Hnd. apply NoDup_cons in Hnd as [Hnin Hnd].
    specialize (IH Hnd).
    assert (Hs : sold_qty k (si :: rest) =
                 (if decide (si_product_id si = k) then si_quantity si else 0)
                 + sold_qty k rest).
    { unfold sold_qty. rewrite filter_cons. by destruct (decide _). }
    rewrite Hs. destruct (decide (si_product_id si = k)) as [<-|Hne].
    + right. exists si. split; [left|]. split; [done|].
      destruct IH as [[-> _]|(si' & Hin & Hid & _)]; [lia|].
      exfalso. apply Hnin. rewrite <- Hid. apply list_elem_of_fmap. by exists si'.
    + destruct IH as [[-> Hall]|(si' & Hin & Hid & ->)].
      * left. split; [done|]. intros si' Hin. apply elem_of_cons in Hin as [->|Hin];
          [done|by apply Hall].
      * right. exists si'. split; [by right|]. done.
Qed.

(** X4.  When no product appears twice in the request, [create_sale]
    keeps every Inventory quantity non-negative: each line was checked
    against the stock it is deducted from. *)
Theorem create_sale_keeps_stock_nonneg : ∀ now req db,
  stock_nonneg db → NoDup (map req_product_id req) →
  stock_nonneg (final_db (run (create_sale now req) db)).
Proof.
  intros now req db Hnn Hnd.
  pose proof (create_sale_run_effect now req db) as He.
  unfold final_db.
  destruct (run (create_sale now req) db) as [[e|[sale|]] db'] eqn:Hr; simpl;
    [by rewrite He| |done].
  destruct He as (_ & _ & _ & _ & _ & Hm & Hinv).
  assert (Hl : Forall (line_ok db) req).
  { unfold run in Hr. destruct (create_sale now req (mkSession db db)) eqn:H;
      [|discriminate]. exact (create_sale_ok_lines _ _ _ _ _ H). }
  assert (Hnd' : NoDup (map si_product_id (items sale))).
  { assert (E : map si_product_id (items sale) =
      map fst (map (fun si => (si_product_id si, si_quantity si)) (items sale)))
      by (rewrite map_map; done).
    rewrite E, Hm, map_map. exact Hnd. }
  intros k i Hk. rewrite Hinv in Hk. apply fmap_Some in Hk as (i0 & Hk0 & ->).
  simpl. destruct (sold_qty_nodup k (items sale) Hnd') as [[-> _]|(si & Hin & Hid & ->)].
  - pose proof (Hnn k i0 Hk0). lia.
  - assert (Hp : (k, si_quantity si) ∈ map (fun it => (req_product_id it, req_quantity it)) req).
    { rewrite <- Hm. apply list_elem_of_fmap. exists si. by rewrite Hid. }
    apply list_elem_of_fmap in Hp as (it & Heq & Hit). injection Heq as Hk' Hq'.
    rewrite Forall_forall in Hl. destruct (Hl it Hit) as (p & inv & _ & Hi & Hle).
    rewrite <- Hk', Hk0 in Hi. injection Hi as <-. lia.
Qed.

Lemma create_sale_keeps_stock_nonneg_witness :
  stock_nonneg (final_db (run (create_sale 0 [mkSaleItemCreate 1 3]) (shop 5 1 ∅))).
Proof.
  apply create_sale_keeps_stock_nonneg.
  - intros k i H. simpl in H. apply lookup_singleton_Some in H as [_ <-]. simpl. lia.
  - simpl. apply NoDup_singleton.
Defined.

Lemma get_sale_run sid db :
  run (get_sale sid) db =
    match sales db !! sid with
    | Some sale => (inr sale, db)
    | None => (inl (HTTPException 404 ("Sale with id " ++ str_int sid ++ " not found")), db)
    end.
Proof.
  unfold run, get_sale. rewrite bind_gets. simpl. by destruct (sales db !! sid).
Qed.

(** X5.  A sale that [create_sale] has committed is returned by [get_sale]
    under the id the sale carries, without changing the database. *)
Theorem create_sale_then_get_sale : ∀ now req db,
  match run (create_sale now req) db with
  | (inr (Some sale), db') => run (get_sale (sale_id sale)) db' = (inr sale, db')
  | _ => True
  end.
Proof.
  intros now req db. pose proof (create_sale_run_effect now req db) as He.
  destruct (run (create_sale now req) db) as [[e|[sale|]] db']; [done| |done].
  destruct He as (_ & Hs & _). rewrite get_sale_run, Hs, lookup_insert_eq. done.
Qed.


Lemma adjust_inventory_run pid a db :
  run (adjust_inventory pid a) db =
    match inventory db !! pid with
    | None => (inl (HTTPException 404
                 ("Inventory for product " ++ str_int pid ++ " not found")), db)
    | Some inv =>
        if quantity inv + a <? 0 then
          (inl (HTTPException 400 ("Adjustment would result in negative inventory ("
                 ++ str_int (quantity inv + a) ++ ")")), db)
        else
          (inr (products db !! pid),
           set_inventory (<[pid := set_quantity (quantity inv + a) inv]> (inventory db)) db)
    end.
Proof.
  unfold run, adjust_inventory, query_inventory. rewrite bind_gets. simpl.
  destruct (inventory db !! pid) as [inv|]; [|done].
  by destruct (quantity inv + a <? 0).
Qed.

(** X7.  [adjust_inventory] changes nothing when it fails: a product with no
    Inventory row gives the 404 "Inventory for product pid not found", and
    an adjustment that would take the quantity below zero gives the 400
    "Adjustment would result in negative inventory (q)" with the rejected
    quantity q. *)
Theorem adjust_inventory_errors : ∀ pid a db,
  (inventory db !! pid = None →
   run (adjust_inventory pid a) db =
     (inl (HTTPException 404 ("Inventory for product " ++ str_int pid ++ " not found")), db)) ∧
  (∀ inv, inventory db !! pid = Some inv → quantity inv + a < 0 →
   run (adjust_inventory pid a) db =
     (inl (HTTPException 400 ("Adjustment would result in negative inventory ("
            ++ str_int (quantity inv + a) ++ ")")), db)).
Proof.
  intros pid a db. rewrite adjust_inventory_run. split.
  - intros ->. done.
  - intros inv -> Hneg. apply Z.ltb_lt in Hneg. by rewrite Hneg.
Qed.



(** X9.  [adjust_inventory] keeps every Inventory quantity non-negative: if
    no row is negative before the call, none is after it, whatever the
    adjustment. *)
Theorem adjust_inventory_keeps_stock_nonneg : ∀ pid a db,
  stock_nonneg db → stock_nonneg (final_db (run (adjust_inventory pid a) db)).
Proof.
  intros pid a db Hnn. rewrite adjust_inventory_run. unfold final_db.
  destruct (inventory db !! pid) as [inv|] eqn:Hi; [|done].
  destruct (quantity inv + a <? 0) eqn:Hb; [done|]. apply Z.ltb_ge in Hb.
  intros k i. simpl. destruct (decide (k = pid)) as [->|Hk].
  - rewrite lookup_insert_eq. intros [= <-]. simpl. lia.
  - rewrite lookup_insert_ne by done. apply Hnn.
Qed.

Lemma adjust_inventory_keeps_stock_nonneg_witness :
  stock_nonneg (final_db (run (adjust_inventory 1 (-5)) (shop 5 1 ∅))).
Proof.
  apply adjust_inventory_keeps_stock_nonneg.
  intros k i H. simpl in H. apply lookup_singleton_Some in H as [_ <-]. simpl. lia.
Defined.

(** X10.  Two successive successful adjustments [a] then [b] of one product
    leave the same database as the single adjustment [a + b], which also
    succeeds. *)
Theorem adjust_inventory_compose : ∀ pid a b db,
  match run (adjust_inventory pid a) db with
  | (inr _, db1) =>
      match run (adjust_inventory pid b) db1 with
      | (inr r, db2) => run (adjust_inventory pid (a + b)) db = (inr r, db2)
      | _ => True
      end
  | _ => True
  end.
Proof.
  intros pid a b db. rewrite adjust_inventory_run.
  destruct (inventory db !! pid) as [inv|] eqn:Hi; [|done].
  destruct (quantity inv + a <? 0) eqn:Ha; [done|].
  rewrite adjust_inventory_run. simpl. rewrite lookup_insert_eq. simpl.
  destruct (quantity inv + a + b <? 0) eqn:Hb; [done|].
  rewrite adjust_inventory_run, Hi, Z.add_assoc, Hb. simpl.
  rewrite insert_insert_eq. done.
Qed.












(** X13.  [process_sync_queue]'s loop body fails an entry before touching
    stock or sales in three cases: a transaction type other than "sale"
    ("Unknown transaction type: t"), a payload that is not valid JSON (the
    text of the JSONDecodeError), and a sale payload with no items ("Sale must
    contain at least one item").  The entry is marked FAILED with that
    message, the failed counter goes up by one and nothing is committed. *)
Theorem sync_entry_early_failures : ∀ now k item p f s,
  (transaction_type item ≠ "sale" →
   sync_entry now k item p f s =
     Ok (p, f + 1) (failed_entry k ("Unknown transaction type: " ++ transaction_type item) s)) ∧
  (transaction_type item = "sale" → ∀ m l c pos, payload item = PayloadInvalid m l c pos →
   sync_entry now k item p f s =
     Ok (p, f + 1) (failed_entry k (str_exc (JSONDecodeError m l c pos)) s)) ∧
  (transaction_type item = "sale" → ∀ pl, payload item = PayloadJson pl → pl_items pl = [] →
   sync_entry now k item p f s =
     Ok (p, f + 1) (failed_entry k "Sale must contain at least one item" s)).
Proof.
  intros now k item p f s. split; [|split].
  - intros Ht. apply String.eqb_neq in Ht. unfold sync_entry, try_except.
    rewrite Ht. reflexivity.
  - intros Ht m l c pos Hp. apply String.eqb_eq in Ht. unfold sync_entry, try_except.
    rewrite Ht. unfold bind at 1, _process_sale_sync, try_except, bind at 1, json_loads.
    rewrite Hp. reflexivity.
  - intros Ht pl Hp Hits. apply String.eqb_eq in Ht. unfold sync_entry, try_except.
    rewrite Ht. unfold bind at 1, _process_sale_sync, try_except, bind at 1, json_loads.
    rewrite Hp. cbn [ret]. rewrite Hits. reflexivity.
Qed.




(** X15.  [add_to_sync_queue] commits the new entry under its id as PENDING,
    with [created_at] the current time and no [synced_at] or
    [error_message], returns it, and changes no other entry and no other
    table. *)
Theorem add_to_sync_queue_effect : ∀ now qid t pl db,
  let item := mkSyncQueue t pl PENDING now None None in
  ∃ db', run (add_to_sync_queue now qid t pl) db = (inr item, db') ∧
    sync_queue db' !! qid = Some item ∧
    (∀ k, k ≠ qid → sync_queue db' !! k = sync_queue db !! k) ∧
    products db' = products db ∧ inventory db' = inventory db ∧
    sales db' = sales db ∧ next_sale_id db' = next_sale_id db.
Proof.
  intros now qid t pl db item. eexists. split; [reflexivity|]. simpl.
  rewrite lookup_insert_eq. split; [done|]. split; [|done].
  intros k Hk. by rewrite lookup_insert_ne.
Qed.



